(** * Antoine-equation coefficient library (chemeos/antoine.py)

    A shallow embedding of [chemeos.antoine] and of the bootstrap script
    [src.py], with the properties of its specification proved over it.

    Modelling choices.
    - The numbers of the library are Python floats, taken as the reals they
      denote ([R] of the Standard Library): the coefficients, the limits and
      the temperature.  Comparison and the test for a zero divisor are exact
      on floats, and so are they here.  What [saturation_pressure] returns
      is not: rounding, the [OverflowError] of [**], underflow to [0.0] and
      the non-finite values are outside this model.  The theorems below
      state what the methods return relative to [saturation_pressure], and
      when it raises [ZeroDivisionError]; the one number they give, for the
      methanol scenario, is the real value that the float of the code
      rounds.
    - [saturation_pressure] is untyped.  On [np.float64] operands the same
      lines run numpy's arithmetic, which is given separately, on the
      binary64 floats of [PrimFloat].
    - A raised exception is a value of [exn]; a call yields a [result].
      An exception carries its [args] tuple, here a list of strings: the
      library raises its two error classes both with a message and bare.
    - The per-set dictionary built by [add_coefficients] always has the same
      five keys; it is the record [coeff_dict], one field per key.
    - [self.antoine_coeff_lib] is a [gmap] from species name to the list of
      coefficient sets, in the order of registration.
    - Methods run in a state-and-exception monad over the instance [self].
    - [str(temperature)] formats a number; the formatting function is a
      parameter [py_str] of the development.
    - The private helper [_log] is called by no method and is left out. *)

From Stdlib Require Import PrimFloat.
From Stdlib Require Import Reals Lra.
From stdpp Require Import gmap strings list fin_maps.

Local Open Scope string_scope.
Local Open Scope list_scope.
Local Open Scope R_scope.

(** ** Exceptions and results *)

Inductive exn : Type :=
  | SpeciesNotFound (args : list string)
  | TemperatureOutOfRange (args : list string)
  | ZeroDivisionError
  | KeyError (key : string).

Inductive result (A : Type) : Type :=
  | Ok (a : A)
  | Raise (e : exn).

Arguments Ok {A} a.
Arguments Raise {A} e.

Definition result_bind {A B : Type} (r : result A) (k : A -> result B) : result B :=
  match r with
  | Ok a => k a
  | Raise e => Raise e
  end.

(** ** Python arithmetic on numbers *)

#[global] Instance Rle_decision (x y : R) : Decision (x <= y) := Rle_dec x y.
#[global] Instance Rge_decision (x y : R) : Decision (x >= y) := Rge_dec x y.
#[global] Instance Req_decision : EqDecision R := Req_dec_T.

(** [x / y] on Python int and float operands: the true division raises
    [ZeroDivisionError] on a zero divisor.  The sum of two floats is zero exactly when the
    rounded sum is, so the test on the real sum is the test of the code. *)
Definition py_truediv (x y : R) : result R :=
  if decide (y = 0) then Raise ZeroDivisionError else Ok (x / y).

(** [x ** y] for a positive base, as the real power; the rounding of the
    result, its overflow and its underflow are not modelled. *)
Definition py_pow (x y : R) : R := Rpower x y.

(** [np.e] *)
Definition np_e : R := exp 1.

(** ** The correlation evaluator *)

(** [saturation_pressure(coeff_a_val, coeff_b_val, coeff_c_val, temp, is_log10)] *)
Definition saturation_pressure (coeff_a_val coeff_b_val coeff_c_val temp : R)
    (is_log10 : bool) : result R :=
  result_bind (py_truediv coeff_b_val (coeff_c_val + temp)) (fun quotient =>
  let exponent := coeff_a_val - quotient in
  if is_log10 then Ok (py_pow 10 exponent)
  else Ok (py_pow np_e exponent)).

(** ** The correlation evaluator on numpy scalars *)



(** ** Data model *)

(** The dictionary [new_item] of [add_coefficients]: keys ['A'], ['B'],
    ['C'], ["lower temperature limit"], ["upper temperature limit"]. *)
Record coeff_dict : Type := mk_coeff_dict {
  COEFF_A : R;
  COEFF_B : R;
  COEFF_C : R;
  LOWER_TEMPERATURE_LIMIT : R;
  UPPER_TEMPERATURE_LIMIT : R
}.

(** The fields of an [AntoineCoefficientLib] instance. *)
Record AntoineCoefficientLib : Type := mk_lib {
  source : string;
  temperature_units : string;
  pressure_units : string;
  antoine_coeff_lib : gmap string (list coeff_dict);
  is_log10 : bool
}.

Definition set_antoine_coeff_lib (self : AntoineCoefficientLib)
    (d : gmap string (list coeff_dict)) : AntoineCoefficientLib :=
  {| source := source self;
     temperature_units := temperature_units self;
     pressure_units := pressure_units self;
     antoine_coeff_lib := d;
     is_log10 := is_log10 self |}.

(** [_check_temperature(temperature, dct)] *)
Definition _check_temperature (temperature : R) (dct : coeff_dict) : bool :=
  bool_decide (temperature >= LOWER_TEMPERATURE_LIMIT dct)
  && bool_decide (temperature <= UPPER_TEMPERATURE_LIMIT dct).

(** ** Methods: state and exceptions over [self] *)

Definition method (A : Type) : Type :=
  AntoineCoefficientLib -> result A * AntoineCoefficientLib.

#[global] Instance method_ret : MRet method := fun A a self => (Ok a, self).

#[global] Instance method_bind : MBind method := fun A B k m self =>
  match m self with
  | (Ok a, self') => k a self'
  | (Raise e, self') => (Raise e, self')
  end.

Definition raise {A : Type} (e : exn) : method A := fun self => (Raise e, self).
Definition get_self : method AntoineCoefficientLib := fun self => (Ok self, self).
Definition put_self (self' : AntoineCoefficientLib) : method unit :=
  fun _ => (Ok tt, self').
Definition lift {A : Type} (r : result A) : method A := fun self => (r, self).

(** [d[key]] on a dictionary: [KeyError] when the key is absent. *)
Definition py_getitem {V : Type} (d : gmap string V) (key : string) : method V :=
  match d !! key with
  | Some v => mret v
  | None => raise (KeyError key)
  end.

(** [key in d] *)
Definition py_in {V : Type} (key : string) (d : gmap string V) : bool :=
  bool_decide (is_Some (d !! key)).

(** [AntoineCoefficientLib(temperature_units, pressure_units, source, is_log10)] *)
Definition __init__ (temperature_units pressure_units source : string)
    (is_log10 : bool) : AntoineCoefficientLib :=
  {| source := source;
     temperature_units := temperature_units;
     pressure_units := pressure_units;
     antoine_coeff_lib := ∅;
     is_log10 := is_log10 |}.

(** [add_coefficients]: append to the entry of the species, or create it. *)
Definition add_coefficients (species_name : string)
    (coeff_a_val coeff_b_val coeff_c_val
     lower_temperature_limit_val upper_temperature_limit_val : R) : method unit :=
  let new_item :=
    {| COEFF_A := coeff_a_val; COEFF_B := coeff_b_val; COEFF_C := coeff_c_val;
       LOWER_TEMPERATURE_LIMIT := lower_temperature_limit_val;
       UPPER_TEMPERATURE_LIMIT := upper_temperature_limit_val |} in
  self ← get_self;
  if py_in species_name (antoine_coeff_lib self) then
    entry ← py_getitem (antoine_coeff_lib self) species_name;
    put_self (set_antoine_coeff_lib self
                (<[species_name := entry ++ [new_item]]> (antoine_coeff_lib self)))
  else
    put_self (set_antoine_coeff_lib self
                (<[species_name := [new_item]]> (antoine_coeff_lib self))).

(** The [for dct in coeffs] loop of [get_coeffs]: the first dictionary that
    passes [_check_temperature], if any. *)
Fixpoint get_coeffs_loop (temperature : R) (coeffs : list coeff_dict)
    : option coeff_dict :=
  match coeffs with
  | [] => None
  | dct :: rest =>
      if _check_temperature temperature dct then Some dct
      else get_coeffs_loop temperature rest
  end.

Section Library.

(** [str(x)] of a number. *)
Variable py_str : R -> string.

(** The message of the [SpeciesNotFound] raised by [get_coeffs]. *)
Definition SpeciesNotFound_message (species_name : string) : string :=
  species_name +:+ " is not in this dictionary".

(** The message of the [TemperatureOutOfRange] raised by [get_coeffs]; the
    literal continues over a line break, whose indentation is part of it. *)
Definition TemperatureOutOfRange_message (temperature : R) (units : string)
    : string :=
  "There is no availible set of coefficients         with a temperature range "
  +:+ py_str temperature +:+ " " +:+ units +:+ " is within the bounds of.".

(** [get_coeffs(species_name, temperature)]: the returned dictionary is the
    stored one. *)
Definition get_coeffs (species_name : string) (temperature : R) : method coeff_dict :=
  self ← get_self;
  if negb (py_in species_name (antoine_coeff_lib self)) then
    raise (SpeciesNotFound [species_name +:+ " is not in this dictionary"])
  else
    coeffs ← py_getitem (antoine_coeff_lib self) species_name;
    match get_coeffs_loop temperature coeffs with
    | Some dct => mret dct
    | None =>
        self ← get_self;
        raise (TemperatureOutOfRange
                 ["There is no availible set of coefficients         with a temperature range "
                  +:+ py_str temperature +:+ " " +:+ temperature_units self
                  +:+ " is within the bounds of."])
    end.

(** [get_a], [get_b], [get_c]: one key of the dictionary of [get_coeffs]. *)
Definition get_a (species_name : string) (temperature : R) : method R :=
  dct ← get_coeffs species_name temperature; mret (COEFF_A dct).

Definition get_b (species_name : string) (temperature : R) : method R :=
  dct ← get_coeffs species_name temperature; mret (COEFF_B dct).

Definition get_c (species_name : string) (temperature : R) : method R :=
  dct ← get_coeffs species_name temperature; mret (COEFF_C dct).

(** [get_saturation_pressure(species_name, temperature)]: its own membership
    test, [get_coeffs], a second [_check_temperature], then the evaluator. *)
Definition get_saturation_pressure (species_name : string) (temperature : R)
    : method R :=
  self ← get_self;
  if negb (py_in species_name (antoine_coeff_lib self)) then
    raise (SpeciesNotFound [])
  else
    coeffs ← get_coeffs species_name temperature;
    if negb (_check_temperature temperature coeffs) then
      raise (TemperatureOutOfRange [])
    else
      self ← get_self;
      lift (saturation_pressure (COEFF_A coeffs) (COEFF_B coeffs) (COEFF_C coeffs)
              temperature (is_log10 self)).

End Library.

(** ** The bootstrap script [src.py] *)

Definition CELSIUS : string := "Celsius".
Definition MMHG : string := "mmHg".
Definition METHANOL : string := "methanol".

Definition boublik_et_al : AntoineCoefficientLib :=
  snd (add_coefficients METHANOL 8.08097 1582.271 239.726 14.9 83.7
         (__init__ CELSIUS MMHG
            "T. Boublik, V. Fried, and E. Hala    , Vapour Pressures of Pure Substances, Elsevier, Amsterdam, 1973"
            true)).

(** ** Scenario values used to exercise the theorems *)

Definition ETHANOL : string := "ethanol".

(** The one set that [src.py] registers for methanol. *)
Definition methanol_set : coeff_dict :=
  mk_coeff_dict 8.08097 1582.271 239.726 14.9 83.7.

(** [str] on the query temperatures of the scenarios, which are the integers
    50 and 100; no other number is formatted there. *)
Definition py_str_scenario (x : R) : string :=
  if decide (x = 50) then "50" else if decide (x = 100) then "100" else "".

(** Two sets with overlapping intervals, both containing 50. *)
Definition overlap_first : coeff_dict := mk_coeff_dict 1 2 3 0 60.
Definition overlap_second : coeff_dict := mk_coeff_dict 4 5 6 40 100.


(** ** Vocabulary of the specification *)

(** The interval test of the specification: [lower_limit <= T <= upper_limit]. *)
Definition in_range (temperature : R) (dct : coeff_dict) : Prop :=
  LOWER_TEMPERATURE_LIMIT dct <= temperature <= UPPER_TEMPERATURE_LIMIT dct.

(** [dct] is the first set of [coeffs], in list order, whose interval
    contains the temperature. *)
Definition first_in_range (temperature : R) (coeffs : list coeff_dict)
    (dct : coeff_dict) : Prop :=
  exists earlier later : list coeff_dict,
    coeffs = earlier ++ dct :: later
    /\ Forall (fun d => ~ in_range temperature d) earlier
    /\ in_range temperature dct.

(** The sets registered for a species, in registration order; none when the
    species has no entry. *)
Definition registered (self : AntoineCoefficientLib) (species_name : string)
    : list coeff_dict :=
  default [] (antoine_coeff_lib self !! species_name).

(** A call ended by raising [SpeciesNotFound], whatever its arguments. *)
Definition raises_SpeciesNotFound {A : Type}
    (out : result A * AntoineCoefficientLib) : Prop :=
  exists args : list string, out.1 = Raise (SpeciesNotFound args).

(** [add_coefficients] called with the five values of a set. *)
Definition register_set (species_name : string) (d : coeff_dict) : method unit :=
  add_coefficients species_name (COEFF_A d) (COEFF_B d) (COEFF_C d)
    (LOWER_TEMPERATURE_LIMIT d) (UPPER_TEMPERATURE_LIMIT d).

(** ** A caller's sequence of registrations *)

(** A caller's calls of [add_coefficients], one per pair, in list order. *)
Fixpoint register_all (regs : list (string * coeff_dict)) : method unit :=
  match regs with
  | [] => mret tt
  | (species_name, d) :: rest =>
      _ ← register_set species_name d; register_all rest
  end.

(** The sets that a sequence of calls gives for one species, in call order. *)
Definition sets_for (species_name : string) (regs : list (string * coeff_dict))
    : list coeff_dict :=
  (filter (fun reg => reg.1 = species_name) regs).*2.

(** A second species, for the scenarios. *)
Definition BENZENE : string := "benzene".

(** A new instance, and three calls on it: two for methanol, one for benzene. *)
Definition new_instance : AntoineCoefficientLib := __init__ CELSIUS MMHG "" true.
Definition scenario_calls : list (string * coeff_dict) :=
  [(METHANOL, methanol_set); (BENZENE, overlap_first); (METHANOL, overlap_second)].

(** ** Basic facts *)

Lemma py_pow_np_e (x : R) : py_pow np_e x = exp x.
Proof.
  unfold py_pow, np_e, Rpower. rewrite ln_exp. f_equal. lra.
Qed.


Lemma _check_temperature_in_range (temperature : R) (dct : coeff_dict) :
  _check_temperature temperature dct = true <-> in_range temperature dct.
Proof.
  unfold _check_temperature, in_range.
  rewrite andb_true_iff, !bool_decide_eq_true.
  split; intros [Hlo Hhi]; split; lra.
Qed.

Lemma _check_temperature_not_in_range (temperature : R) (dct : coeff_dict) :
  _check_temperature temperature dct = false <-> ~ in_range temperature dct.
Proof.
  rewrite <- _check_temperature_in_range.
  destruct (_check_temperature temperature dct); split; congruence.
Qed.

Lemma get_coeffs_loop_Some (temperature : R) (coeffs : list coeff_dict)
    (dct : coeff_dict) :
  get_coeffs_loop temperature coeffs = Some dct
  <-> first_in_range temperature coeffs dct.
Proof.
  induction coeffs as [|d rest IH]; simpl.
  - split; [discriminate|].
    intros (earlier & later & Heq & _). by destruct earlier.
  - destruct (_check_temperature temperature d) eqn:Hd.
    + apply _check_temperature_in_range in Hd. split.
      * intros [= <-]. exists [], rest. repeat split; [constructor | apply Hd ..].
      * intros (earlier & later & Heq & Hnone & Hin).
        destruct earlier as [|d' earlier]; simpl in Heq.
        -- congruence.
        -- injection Heq as <- _. inversion Hnone; subst. contradiction.
    + apply _check_temperature_not_in_range in Hd. rewrite IH. split.
      * intros (earlier & later & -> & Hnone & Hin).
        exists (d :: earlier), later. split; [done|]. split; [by constructor | done].
      * intros (earlier & later & Heq & Hnone & Hin).
        destruct earlier as [|d' earlier]; simpl in Heq.
        -- injection Heq as -> _. contradiction.
        -- injection Heq as <- ->. inversion Hnone; subst.
           by exists earlier, later.
Qed.

Lemma get_coeffs_loop_None (temperature : R) (coeffs : list coeff_dict) :
  get_coeffs_loop temperature coeffs = None
  <-> Forall (fun d => ~ in_range temperature d) coeffs.
Proof.
  induction coeffs as [|d rest IH]; simpl.
  - split; [constructor | done].
  - destruct (_check_temperature temperature d) eqn:Hd.
    + apply _check_temperature_in_range in Hd. split; [discriminate|].
      intros Hall. inversion Hall; subst. contradiction.
    + apply _check_temperature_not_in_range in Hd. rewrite IH. split.
      * by constructor.
      * intros Hall. by inversion Hall.
Qed.

Lemma py_in_lookup {V : Type} (key : string) (d : gmap string V) :
  py_in key d = match d !! key with Some _ => true | None => false end.
Proof.
  unfold py_in. destruct (d !! key) eqn:Hk.
  - apply bool_decide_eq_true. eauto.
  - apply bool_decide_eq_false. intros [v Hv]. discriminate.
Qed.

Lemma saturation_pressure_nonzero (a b c T : R) (use_log10 : bool) :
  c + T <> 0 ->
  saturation_pressure a b c T use_log10
  = Ok (if use_log10 then Rpower 10 (a - b / (c + T)) else exp (a - b / (c + T))).
Proof.
  intros Hnz. unfold saturation_pressure, py_truediv.
  destruct (decide (c + T = 0)) as [Hz|_]; [contradiction|]. simpl.
  destruct use_log10; [reflexivity|]. by rewrite py_pow_np_e.
Qed.

Lemma saturation_pressure_zero (a b c T : R) (use_log10 : bool) :
  c + T = 0 ->
  saturation_pressure a b c T use_log10 = Raise ZeroDivisionError.
Proof.
  intros Hz. unfold saturation_pressure, py_truediv.
  by destruct (decide (c + T = 0)).
Qed.

(** ** The methods, as equations on the state *)

(** Unfolds the plumbing of [method], leaving the code of the body. *)
Ltac unfold_method :=
  unfold mbind, method_bind, mret, method_ret, get_self, put_self, raise, lift,
    py_getitem.

Lemma add_coefficients_eq (species_name : string) (a b c lower upper : R)
    (self : AntoineCoefficientLib) :
  add_coefficients species_name a b c lower upper self
  = (Ok tt,
     set_antoine_coeff_lib self
       (<[species_name :=
            registered self species_name ++ [mk_coeff_dict a b c lower upper]]>
          (antoine_coeff_lib self))).
Proof.
  unfold add_coefficients, registered. unfold_method. rewrite py_in_lookup.
  by destruct (antoine_coeff_lib self !! species_name).
Qed.

(** A species has an entry exactly when it was registered: a fresh instance
    has none, a registration creates one and never removes another. *)
Lemma __init___no_entry (temperature_units pressure_units source : string)
    (is_log10 : bool) (species_name : string) :
  antoine_coeff_lib (__init__ temperature_units pressure_units source is_log10)
    !! species_name = None.
Proof. apply lookup_empty. Qed.

Lemma add_coefficients_no_entry (species_name other : string)
    (a b c lower upper : R) (self : AntoineCoefficientLib) :
  antoine_coeff_lib (add_coefficients species_name a b c lower upper self).2
    !! other = None
  <-> other <> species_name /\ antoine_coeff_lib self !! other = None.
Proof.
  rewrite add_coefficients_eq. simpl.
  destruct (decide (other = species_name)) as [->|Hne].
  - rewrite lookup_insert_eq. split; [discriminate | by intros [? _]].
  - rewrite lookup_insert_ne by done. split; [done | by intros [_ ?]].
Qed.

Lemma register_set_eq (species_name : string) (d : coeff_dict)
    (self : AntoineCoefficientLib) :
  register_set species_name d self
  = (Ok tt,
     set_antoine_coeff_lib self
       (<[species_name := registered self species_name ++ [d]]>
          (antoine_coeff_lib self))).
Proof. unfold register_set. rewrite add_coefficients_eq. by destruct d. Qed.

(** The library of [src.py] after its one registration. *)

Lemma boublik_et_al_methanol :
  antoine_coeff_lib boublik_et_al !! METHANOL = Some [methanol_set].
Proof.
  unfold boublik_et_al. rewrite add_coefficients_eq. simpl.
  by rewrite lookup_insert_eq.
Qed.

Lemma boublik_et_al_ethanol :
  antoine_coeff_lib boublik_et_al !! ETHANOL = None.
Proof.
  unfold boublik_et_al. rewrite add_coefficients_eq. simpl.
  by rewrite lookup_insert_ne.
Qed.

Lemma boublik_et_al_is_log10 : is_log10 boublik_et_al = true.
Proof. unfold boublik_et_al. by rewrite add_coefficients_eq. Qed.

Lemma boublik_et_al_temperature_units :
  temperature_units boublik_et_al = CELSIUS.
Proof. unfold boublik_et_al. by rewrite add_coefficients_eq. Qed.

Lemma methanol_in_range (T : R) :
  14.9 <= T <= 83.7 -> in_range T methanol_set.
Proof. unfold in_range, methanol_set. simpl. lra. Qed.

Lemma methanol_check_50 : _check_temperature 50 methanol_set = true.
Proof. apply _check_temperature_in_range, methanol_in_range. lra. Qed.

Section Properties.

Variable py_str : R -> string.

Lemma get_coeffs_eq (species_name : string) (temperature : R)
    (self : AntoineCoefficientLib) :
  get_coeffs py_str species_name temperature self
  = match antoine_coeff_lib self !! species_name with
    | None =>
        (Raise (SpeciesNotFound [SpeciesNotFound_message species_name]), self)
    | Some coeffs =>
        match get_coeffs_loop temperature coeffs with
        | Some dct => (Ok dct, self)
        | None =>
            (Raise (TemperatureOutOfRange
                      [TemperatureOutOfRange_message py_str temperature
                         (temperature_units self)]), self)
        end
    end.
Proof.
  unfold get_coeffs. unfold_method. rewrite py_in_lookup.
  destruct (antoine_coeff_lib self !! species_name) as [coeffs|]; simpl; [|done].
  by destruct (get_coeffs_loop temperature coeffs).
Qed.

Lemma get_coeffs_Ok_check (species_name : string) (temperature : R)
    (self self' : AntoineCoefficientLib) (dct : coeff_dict) :
  get_coeffs py_str species_name temperature self = (Ok dct, self') ->
  _check_temperature temperature dct = true.
Proof.
  rewrite get_coeffs_eq.
  destruct (antoine_coeff_lib self !! species_name) as [coeffs|]; [|discriminate].
  destruct (get_coeffs_loop temperature coeffs) as [d|] eqn:Hloop; [|discriminate].
  intros [= -> _]. apply get_coeffs_loop_Some in Hloop.
  destruct Hloop as (_ & _ & _ & _ & Hin).
  by apply _check_temperature_in_range.
Qed.

Lemma get_saturation_pressure_eq (species_name : string) (temperature : R)
    (self : AntoineCoefficientLib) :
  get_saturation_pressure py_str species_name temperature self
  = match antoine_coeff_lib self !! species_name with
    | None => (Raise (SpeciesNotFound []), self)
    | Some coeffs =>
        match get_coeffs_loop temperature coeffs with
        | Some dct =>
            (saturation_pressure (COEFF_A dct) (COEFF_B dct) (COEFF_C dct)
               temperature (is_log10 self), self)
        | None =>
            (Raise (TemperatureOutOfRange
                      [TemperatureOutOfRange_message py_str temperature
                         (temperature_units self)]), self)
        end
    end.
Proof.
  unfold get_saturation_pressure, mbind, method_bind, get_self at 1.
  rewrite py_in_lookup.
  pose proof (get_coeffs_eq species_name temperature self) as Hget.
  pose proof (get_coeffs_Ok_check species_name temperature self) as Hcheck.
  destruct (antoine_coeff_lib self !! species_name) as [coeffs|]; simpl; [|done].
  destruct (get_coeffs_loop temperature coeffs) as [d|]; rewrite Hget; [|done].
  by rewrite (Hcheck self d Hget).
Qed.

Lemma get_a_eq (species_name : string) (temperature : R)
    (self : AntoineCoefficientLib) :
  get_a py_str species_name temperature self
  = match get_coeffs py_str species_name temperature self with
    | (Ok dct, self') => (Ok (COEFF_A dct), self')
    | (Raise e, self') => (Raise e, self')
    end.
Proof. reflexivity. Qed.

Lemma get_b_eq (species_name : string) (temperature : R)
    (self : AntoineCoefficientLib) :
  get_b py_str species_name temperature self
  = match get_coeffs py_str species_name temperature self with
    | (Ok dct, self') => (Ok (COEFF_B dct), self')
    | (Raise e, self') => (Raise e, self')
    end.
Proof. reflexivity. Qed.

Lemma get_c_eq (species_name : string) (temperature : R)
    (self : AntoineCoefficientLib) :
  get_c py_str species_name temperature self
  = match get_coeffs py_str species_name temperature self with
    | (Ok dct, self') => (Ok (COEFF_C dct), self')
    | (Raise e, self') => (Raise e, self')
    end.
Proof. reflexivity. Qed.

Lemma get_coeffs_state (species_name : string) (temperature : R)
    (self : AntoineCoefficientLib) :
  snd (get_coeffs py_str species_name temperature self) = self.
Proof.
  rewrite get_coeffs_eq.
  destruct (antoine_coeff_lib self !! species_name) as [coeffs|]; [|done].
  by destruct (get_coeffs_loop temperature coeffs).
Qed.

(** ** Properties of the specification *)


(** C1. For a registered species and a temperature that some registered set
    of it contains, [get_saturation_pressure] returns exactly
    [saturation_pressure] on the coefficients of the set that [get_coeffs]
    resolves, with the library's log-base flag; for the methanol scenario the
    value at 50 is [10 ** (8.08097 - 1582.271 / (239.726 + 50))]. *)
Theorem get_saturation_pressure_evaluates :
  (forall (self : AntoineCoefficientLib) (species_name : string) (T : R),
     (exists d0, d0 ∈ registered self species_name /\ in_range T d0) ->
     exists dct,
       get_coeffs py_str species_name T self = (Ok dct, self)
       /\ get_saturation_pressure py_str species_name T self
          = (saturation_pressure (COEFF_A dct) (COEFF_B dct) (COEFF_C dct) T
               (is_log10 self), self))
  /\ get_saturation_pressure py_str METHANOL 50 boublik_et_al
     = (Ok (Rpower 10 (8.08097 - 1582.271 / (239.726 + 50))), boublik_et_al).
Proof.
  split.
  - intros self species_name T (d0 & Hd0 & Hin).
    rewrite get_saturation_pressure_eq, get_coeffs_eq. unfold registered in Hd0.
    destruct (antoine_coeff_lib self !! species_name) as [coeffs|]; simpl in Hd0.
    + destruct (get_coeffs_loop T coeffs) as [dct|] eqn:Hloop; [by exists dct|].
      apply get_coeffs_loop_None in Hloop.
      rewrite Forall_forall in Hloop. by destruct (Hloop d0 Hd0).
    + by apply not_elem_of_nil in Hd0.
  - rewrite get_saturation_pressure_eq.
    rewrite boublik_et_al_methanol. simpl.
    rewrite methanol_check_50, boublik_et_al_is_log10.
    unfold methanol_set; simpl.
    rewrite saturation_pressure_nonzero; [done | lra].
Qed.

(** C2. [get_coeffs] returns the first set, in registration order, whose
    interval satisfies [lower_limit <= T <= upper_limit], both ends included;
    of two sets registered one after the other that both contain [T], the
    earlier one is returned. *)
Theorem get_coeffs_first_match :
  (forall (self : AntoineCoefficientLib) (species_name : string) (T : R)
          (coeffs : list coeff_dict) (dct : coeff_dict),
     antoine_coeff_lib self !! species_name = Some coeffs ->
     (get_coeffs py_str species_name T self = (Ok dct, self)
      <-> first_in_range T coeffs dct))
  /\ (forall (self : AntoineCoefficientLib) (species_name : string) (T : R)
             (S1 S2 : coeff_dict),
        Forall (fun d => ~ in_range T d) (registered self species_name) ->
        in_range T S1 -> in_range T S2 ->
        let self1 := (register_set species_name S1 self).2 in
        let self2 := (register_set species_name S2 self1).2 in
        get_coeffs py_str species_name T self2 = (Ok S1, self2)).
Proof.
  split.
  - intros self species_name T coeffs dct Hlook.
    rewrite get_coeffs_eq, Hlook, <- get_coeffs_loop_Some.
    destruct (get_coeffs_loop T coeffs) as [d|]; split; congruence.
  - intros self species_name T S1 S2 Hnone H1 H2 self1 self2.
    subst self1 self2. rewrite !register_set_eq. simpl.
    rewrite get_coeffs_eq. simpl. rewrite lookup_insert_eq.
    unfold registered at 1. simpl. rewrite lookup_insert_eq. simpl.
    assert (Hfirst : first_in_range T
              ((registered self species_name ++ [S1]) ++ [S2]) S1).
    { exists (registered self species_name), [S2].
      split; [by rewrite <- app_assoc|]. by split. }
    apply get_coeffs_loop_Some in Hfirst. by rewrite Hfirst.
Qed.

(** C4. For a species with no entry in the library, [get_coeffs], [get_a],
    [get_b], [get_c] and [get_saturation_pressure] all raise
    [SpeciesNotFound], at every temperature. *)
Theorem unregistered_species_not_found (self : AntoineCoefficientLib)
    (species_name : string) (T : R) :
  antoine_coeff_lib self !! species_name = None ->
  raises_SpeciesNotFound (get_coeffs py_str species_name T self)
  /\ raises_SpeciesNotFound (get_a py_str species_name T self)
  /\ raises_SpeciesNotFound (get_b py_str species_name T self)
  /\ raises_SpeciesNotFound (get_c py_str species_name T self)
  /\ raises_SpeciesNotFound (get_saturation_pressure py_str species_name T self).
Proof.
  intros Hnone. unfold raises_SpeciesNotFound.
  rewrite get_a_eq, get_b_eq, get_c_eq, get_coeffs_eq,
    get_saturation_pressure_eq, Hnone. simpl.
  repeat split; eauto.
Qed.

(** C5. For a registered species and a temperature that none of its sets
    contains, [get_coeffs] raises [TemperatureOutOfRange]; the message holds
    [str] of the queried temperature and the library's temperature units. *)
Theorem get_coeffs_out_of_range (self : AntoineCoefficientLib)
    (species_name : string) (T : R) (coeffs : list coeff_dict) :
  antoine_coeff_lib self !! species_name = Some coeffs ->
  Forall (fun d => ~ in_range T d) coeffs ->
  get_coeffs py_str species_name T self
  = (Raise (TemperatureOutOfRange
       ["There is no availible set of coefficients         with a temperature range "
        +:+ py_str T +:+ " " +:+ temperature_units self
        +:+ " is within the bounds of."]), self).
Proof.
  intros Hlook Hnone. apply get_coeffs_loop_None in Hnone.
  by rewrite get_coeffs_eq, Hlook, Hnone.
Qed.

(** C6. On the library of [src.py], where ethanol is not registered,
    [get_saturation_pressure] raises [SpeciesNotFound] with no argument at
    all, while [get_coeffs] raises it with a message that names the species. *)
Theorem get_saturation_pressure_SpeciesNotFound_bare :
  get_saturation_pressure py_str ETHANOL 50 boublik_et_al
  = (Raise (SpeciesNotFound []), boublik_et_al)
  /\ get_coeffs py_str ETHANOL 50 boublik_et_al
     = (Raise (SpeciesNotFound ["ethanol is not in this dictionary"]),
        boublik_et_al).
Proof.
  by rewrite get_saturation_pressure_eq, get_coeffs_eq, boublik_et_al_ethanol.
Qed.

(** C7. In [get_saturation_pressure], once [get_coeffs] has returned a set,
    the second [_check_temperature] on that set passes; the bare
    [TemperatureOutOfRange()] behind it is never raised. *)
Theorem recheck_always_passes :
  (forall (self self' : AntoineCoefficientLib) (species_name : string) (T : R)
          (dct : coeff_dict),
     get_coeffs py_str species_name T self = (Ok dct, self') ->
     _check_temperature T dct = true)
  /\ (forall (self : AntoineCoefficientLib) (species_name : string) (T : R),
        (get_saturation_pressure py_str species_name T self).1
        <> Raise (TemperatureOutOfRange [])).
Proof.
  split.
  - intros self self' species_name T dct. apply get_coeffs_Ok_check.
  - intros self species_name T. rewrite get_saturation_pressure_eq.
    destruct (antoine_coeff_lib self !! species_name) as [coeffs|]; [|done].
    destruct (get_coeffs_loop T coeffs) as [dct|]; [|done]. simpl.
    destruct (Req_dec_T (COEFF_C dct + T) 0) as [Hz|Hnz].
    + by rewrite saturation_pressure_zero.
    + by rewrite saturation_pressure_nonzero.
Qed.

(** C9. [add_coefficients] always succeeds: the new set goes to the end of
    the entry of the species when there is one, and otherwise becomes a new
    entry of that one set; nothing about the values is checked. *)
Theorem add_coefficients_appends (self : AntoineCoefficientLib)
    (species_name : string) (a b c lower upper : R) :
  exists self' : AntoineCoefficientLib,
    add_coefficients species_name a b c lower upper self = (Ok tt, self')
    /\ antoine_coeff_lib self' !! species_name
       = Some match antoine_coeff_lib self !! species_name with
              | Some entry => entry ++ [mk_coeff_dict a b c lower upper]
              | None => [mk_coeff_dict a b c lower upper]
              end.
Proof.
  rewrite add_coefficients_eq. eexists. split; [reflexivity|]. simpl.
  rewrite lookup_insert_eq. unfold registered.
  by destruct (antoine_coeff_lib self !! species_name).
Qed.

(** C10. The five queries leave the whole instance as it was, whether they
    return or raise; [add_coefficients] for a species changes the entry of
    that species only, and none of [source], [temperature_units],
    [pressure_units] and [is_log10]. *)
Theorem queries_and_registration_frame :
  (forall (self : AntoineCoefficientLib) (species_name : string) (T : R),
     (get_coeffs py_str species_name T self).2 = self
     /\ (get_a py_str species_name T self).2 = self
     /\ (get_b py_str species_name T self).2 = self
     /\ (get_c py_str species_name T self).2 = self
     /\ (get_saturation_pressure py_str species_name T self).2 = self)
  /\ (forall (self : AntoineCoefficientLib) (species_name : string)
             (a b c lower upper : R),
        let self' := (add_coefficients species_name a b c lower upper self).2 in
        (forall other : string,
           other <> species_name ->
           antoine_coeff_lib self' !! other = antoine_coeff_lib self !! other)
        /\ source self' = source self
        /\ temperature_units self' = temperature_units self
        /\ pressure_units self' = pressure_units self
        /\ is_log10 self' = is_log10 self).
Proof.
  split.
  - intros self species_name T.
    pose proof (get_coeffs_state species_name T self) as Hstate.
    rewrite get_a_eq, get_b_eq, get_c_eq, get_saturation_pressure_eq.
    destruct (get_coeffs py_str species_name T self) as [[dct|e] self0].
    all: simpl in Hstate; subst self0; repeat split; try done.
    all: destruct (antoine_coeff_lib self !! species_name) as [coeffs|]; [|done].
    all: by destruct (get_coeffs_loop T coeffs).
  - intros self species_name a b c lower upper self'. subst self'.
    rewrite add_coefficients_eq. simpl. repeat split; try done.
    intros other Hne. by rewrite lookup_insert_ne.
Qed.

End Properties.


(** ** The theorems on the scenarios of the specification *)

Lemma methanol_registered_in_range :
  exists d0, d0 ∈ registered boublik_et_al METHANOL /\ in_range 50 d0.
Proof.
  exists methanol_set. split.
  - unfold registered. rewrite boublik_et_al_methanol. simpl. apply list_elem_of_here.
  - apply methanol_in_range. lra.
Qed.

Lemma get_coeffs_methanol_50 :
  get_coeffs py_str_scenario METHANOL 50 boublik_et_al
  = (Ok methanol_set, boublik_et_al).
Proof.
  rewrite get_coeffs_eq, boublik_et_al_methanol. simpl.
  by rewrite methanol_check_50.
Qed.

Example get_a_methanol_50 :
  get_a py_str_scenario METHANOL 50 boublik_et_al = (Ok 8.08097, boublik_et_al).
Proof. by rewrite get_a_eq, get_coeffs_methanol_50. Qed.

Example get_coeffs_lower_limit_included :
  get_coeffs py_str_scenario METHANOL 14.9 boublik_et_al
  = (Ok methanol_set, boublik_et_al).
Proof.
  rewrite get_coeffs_eq, boublik_et_al_methanol. simpl.
  replace (_check_temperature 14.9 methanol_set) with true; [done|].
  symmetry. apply _check_temperature_in_range, methanol_in_range. lra.
Qed.

Example get_coeffs_upper_limit_included :
  get_coeffs py_str_scenario METHANOL 83.7 boublik_et_al
  = (Ok methanol_set, boublik_et_al).
Proof.
  rewrite get_coeffs_eq, boublik_et_al_methanol. simpl.
  replace (_check_temperature 83.7 methanol_set) with true; [done|].
  symmetry. apply _check_temperature_in_range, methanol_in_range. lra.
Qed.

Lemma methanol_100_out_of_range :
  Forall (fun d => ~ in_range 100 d) [methanol_set].
Proof.
  constructor; [|constructor]. unfold in_range, methanol_set. simpl. lra.
Qed.

Lemma py_str_scenario_100 : py_str_scenario 100 = "100".
Proof.
  unfold py_str_scenario.
  destruct (decide (100 = 50)) as [H|_]; [lra|].
  by destruct (decide (100 = 100)).
Qed.

Example get_saturation_pressure_methanol_100 :
  get_saturation_pressure py_str_scenario METHANOL 100 boublik_et_al
  = (Raise (TemperatureOutOfRange
       ["There is no availible set of coefficients         with a temperature range 100 Celsius is within the bounds of."]),
     boublik_et_al).
Proof.
  rewrite get_saturation_pressure_eq, boublik_et_al_methanol.
  pose proof methanol_100_out_of_range as Hnone.
  apply get_coeffs_loop_None in Hnone. rewrite Hnone.
  unfold TemperatureOutOfRange_message.
  by rewrite py_str_scenario_100, boublik_et_al_temperature_units.
Qed.

Lemma get_saturation_pressure_evaluates_witness :
  (exists d0, d0 ∈ registered boublik_et_al METHANOL /\ in_range 50 d0)
  /\ exists dct,
       get_coeffs py_str_scenario METHANOL 50 boublik_et_al
       = (Ok dct, boublik_et_al)
       /\ get_saturation_pressure py_str_scenario METHANOL 50 boublik_et_al
          = (saturation_pressure (COEFF_A dct) (COEFF_B dct) (COEFF_C dct) 50
               (is_log10 boublik_et_al), boublik_et_al).
Proof.
  split; [exact methanol_registered_in_range|].
  exact (proj1 (get_saturation_pressure_evaluates py_str_scenario)
           boublik_et_al METHANOL 50 methanol_registered_in_range).
Defined.

Lemma first_in_range_methanol_50 : first_in_range 50 [methanol_set] methanol_set.
Proof.
  exists [], []. repeat split; [constructor | apply methanol_in_range; lra ..].
Qed.

Lemma overlap_both_in_range :
  in_range 50 overlap_first /\ in_range 50 overlap_second.
Proof. unfold in_range, overlap_first, overlap_second. simpl. lra. Qed.

Lemma ethanol_none_registered :
  Forall (fun d => ~ in_range 50 d) (registered boublik_et_al ETHANOL).
Proof. unfold registered. rewrite boublik_et_al_ethanol. constructor. Qed.

Lemma get_coeffs_first_match_witness :
  (antoine_coeff_lib boublik_et_al !! METHANOL = Some [methanol_set]
   /\ first_in_range 50 [methanol_set] methanol_set
   /\ get_coeffs py_str_scenario METHANOL 50 boublik_et_al
      = (Ok methanol_set, boublik_et_al))
  /\ (Forall (fun d => ~ in_range 50 d) (registered boublik_et_al ETHANOL)
      /\ in_range 50 overlap_first
      /\ in_range 50 overlap_second
      /\ get_coeffs py_str_scenario ETHANOL 50
           (register_set ETHANOL overlap_second
              (register_set ETHANOL overlap_first boublik_et_al).2).2
         = (Ok overlap_first,
            (register_set ETHANOL overlap_second
               (register_set ETHANOL overlap_first boublik_et_al).2).2)).
Proof.
  split.
  - split; [exact boublik_et_al_methanol|].
    split; [exact first_in_range_methanol_50|].
    exact (proj2 (proj1 (get_coeffs_first_match py_str_scenario)
                    boublik_et_al METHANOL 50 [methanol_set] methanol_set
                    boublik_et_al_methanol)
             first_in_range_methanol_50).
  - split; [exact ethanol_none_registered|].
    split; [exact (proj1 overlap_both_in_range)|].
    split; [exact (proj2 overlap_both_in_range)|].
    exact (proj2 (get_coeffs_first_match py_str_scenario)
             boublik_et_al ETHANOL 50 overlap_first overlap_second
             ethanol_none_registered
             (proj1 overlap_both_in_range) (proj2 overlap_both_in_range)).
Defined.

Lemma unregistered_species_not_found_witness :
  antoine_coeff_lib boublik_et_al !! ETHANOL = None
  /\ raises_SpeciesNotFound (get_coeffs py_str_scenario ETHANOL 50 boublik_et_al)
  /\ raises_SpeciesNotFound (get_a py_str_scenario ETHANOL 50 boublik_et_al)
  /\ raises_SpeciesNotFound (get_b py_str_scenario ETHANOL 50 boublik_et_al)
  /\ raises_SpeciesNotFound (get_c py_str_scenario ETHANOL 50 boublik_et_al)
  /\ raises_SpeciesNotFound
       (get_saturation_pressure py_str_scenario ETHANOL 50 boublik_et_al).
Proof.
  split; [exact boublik_et_al_ethanol|].
  exact (unregistered_species_not_found py_str_scenario boublik_et_al ETHANOL 50
           boublik_et_al_ethanol).
Defined.

Lemma get_coeffs_out_of_range_witness :
  antoine_coeff_lib boublik_et_al !! METHANOL = Some [methanol_set]
  /\ Forall (fun d => ~ in_range 100 d) [methanol_set]
  /\ get_coeffs py_str_scenario METHANOL 100 boublik_et_al
     = (Raise (TemperatureOutOfRange
          ["There is no availible set of coefficients         with a temperature range "
           +:+ py_str_scenario 100 +:+ " " +:+ temperature_units boublik_et_al
           +:+ " is within the bounds of."]), boublik_et_al).
Proof.
  split; [exact boublik_et_al_methanol|].
  split; [exact methanol_100_out_of_range|].
  exact (get_coeffs_out_of_range py_str_scenario boublik_et_al METHANOL 100
           [methanol_set] boublik_et_al_methanol methanol_100_out_of_range).
Defined.

Lemma recheck_always_passes_witness :
  get_coeffs py_str_scenario METHANOL 50 boublik_et_al
  = (Ok methanol_set, boublik_et_al)
  /\ _check_temperature 50 methanol_set = true.
Proof.
  split; [exact get_coeffs_methanol_50|].
  exact (proj1 (recheck_always_passes py_str_scenario)
           boublik_et_al boublik_et_al METHANOL 50 methanol_set
           get_coeffs_methanol_50).
Defined.



Lemma queries_and_registration_frame_witness :
  ETHANOL <> METHANOL
  /\ antoine_coeff_lib
       (add_coefficients METHANOL 1 2 3 90 120 boublik_et_al).2 !! ETHANOL
     = antoine_coeff_lib boublik_et_al !! ETHANOL
  /\ (get_saturation_pressure py_str_scenario METHANOL 50 boublik_et_al).2
     = boublik_et_al.
Proof.
  assert (Hne : ETHANOL <> METHANOL) by discriminate.
  split; [exact Hne|]. split.
  - exact (proj1 (proj2 (queries_and_registration_frame py_str_scenario)
                    boublik_et_al METHANOL 1 2 3 90 120) ETHANOL Hne).
  - exact (proj2 (proj2 (proj2 (proj2
             (proj1 (queries_and_registration_frame py_str_scenario)
                boublik_et_al METHANOL 50))))).
Defined.

(** ** Further properties of the code *)

Lemma get_coeffs_loop_app (T : R) (l1 l2 : list coeff_dict) :
  get_coeffs_loop T (l1 ++ l2)
  = match get_coeffs_loop T l1 with
    | Some dct => Some dct
    | None => get_coeffs_loop T l2
    end.
Proof.
  induction l1 as [|d l1 IH]; simpl; [done|].
  by destruct (_check_temperature T d).
Qed.

Lemma registered_add_coefficients (species_name other : string)
    (a b c lower upper : R) (self : AntoineCoefficientLib) :
  registered (add_coefficients species_name a b c lower upper self).2 other
  = if decide (other = species_name)
    then registered self other ++ [mk_coeff_dict a b c lower upper]
    else registered self other.
Proof.
  rewrite add_coefficients_eq. unfold registered at 1. simpl.
  destruct (decide (other = species_name)) as [->|Hne].
  - by rewrite lookup_insert_eq.
  - by rewrite lookup_insert_ne.
Qed.

Lemma add_coefficients_attributes (species_name : string)
    (a b c lower upper : R) (self : AntoineCoefficientLib) :
  let self' := (add_coefficients species_name a b c lower upper self).2 in
  source self' = source self
  /\ temperature_units self' = temperature_units self
  /\ pressure_units self' = pressure_units self
  /\ is_log10 self' = is_log10 self.
Proof. simpl. by rewrite add_coefficients_eq. Qed.

Lemma lookup_registered (self : AntoineCoefficientLib) (species_name : string)
    (coeffs : list coeff_dict) :
  antoine_coeff_lib self !! species_name = Some coeffs ->
  registered self species_name = coeffs.
Proof. intros Hlook. unfold registered. by rewrite Hlook. Qed.

Section Further.

Variable py_str : R -> string.

(** X2. What [get_coeffs] ends with tells why: a returned set is a registered
    set of the species whose interval contains [T]; [SpeciesNotFound], with
    the message naming the species, means that there is no entry;
    [TemperatureOutOfRange] means that there is an entry and none of its sets
    contains [T]; no other exception is raised. *)
Theorem get_coeffs_outcome (self : AntoineCoefficientLib)
    (species_name : string) (T : R) :
  match (get_coeffs py_str species_name T self).1 with
  | Ok dct => dct ∈ registered self species_name /\ in_range T dct
  | Raise (SpeciesNotFound args) =>
      antoine_coeff_lib self !! species_name = None
      /\ args = [species_name +:+ " is not in this dictionary"]
  | Raise (TemperatureOutOfRange args) =>
      is_Some (antoine_coeff_lib self !! species_name)
      /\ Forall (fun d => ~ in_range T d) (registered self species_name)
  | Raise ZeroDivisionError => False
  | Raise (KeyError key) => False
  end.
Proof.
  rewrite get_coeffs_eq. unfold registered.
  destruct (antoine_coeff_lib self !! species_name) as [coeffs|] eqn:Hlook;
    simpl; [|done].
  destruct (get_coeffs_loop T coeffs) as [dct|] eqn:Hloop; simpl.
  - apply get_coeffs_loop_Some in Hloop.
    destruct Hloop as (earlier & later & -> & _ & Hin).
    split; [|done]. apply elem_of_app. right. apply list_elem_of_here.
  - split; [by eexists|]. by apply get_coeffs_loop_None.
Qed.


(** The outcome of a query is a function of four things: whether the species
    has an entry, what the loop finds among its sets, and the two attributes
    that the queries read. *)
Lemma get_coeffs_result (self : AntoineCoefficientLib) (species_name : string)
    (T : R) :
  (get_coeffs py_str species_name T self).1
  = if py_in species_name (antoine_coeff_lib self) then
      match get_coeffs_loop T (registered self species_name) with
      | Some dct => Ok dct
      | None =>
          Raise (TemperatureOutOfRange
                   [TemperatureOutOfRange_message py_str T (temperature_units self)])
      end
    else Raise (SpeciesNotFound [SpeciesNotFound_message species_name]).
Proof.
  rewrite get_coeffs_eq, py_in_lookup. unfold registered.
  destruct (antoine_coeff_lib self !! species_name) as [coeffs|]; simpl; [|done].
  by destruct (get_coeffs_loop T coeffs).
Qed.

Lemma get_saturation_pressure_result (self : AntoineCoefficientLib)
    (species_name : string) (T : R) :
  (get_saturation_pressure py_str species_name T self).1
  = if py_in species_name (antoine_coeff_lib self) then
      match get_coeffs_loop T (registered self species_name) with
      | Some dct =>
          saturation_pressure (COEFF_A dct) (COEFF_B dct) (COEFF_C dct) T
            (is_log10 self)
      | None =>
          Raise (TemperatureOutOfRange
                   [TemperatureOutOfRange_message py_str T (temperature_units self)])
      end
    else Raise (SpeciesNotFound []).
Proof.
  rewrite get_saturation_pressure_eq, py_in_lookup. unfold registered.
  destruct (antoine_coeff_lib self !! species_name) as [coeffs|]; simpl; [|done].
  by destruct (get_coeffs_loop T coeffs).
Qed.

Lemma accessor_results (self : AntoineCoefficientLib) (species_name : string)
    (T : R) :
  (get_a py_str species_name T self).1
  = result_bind (get_coeffs py_str species_name T self).1 (fun d => Ok (COEFF_A d))
  /\ (get_b py_str species_name T self).1
     = result_bind (get_coeffs py_str species_name T self).1 (fun d => Ok (COEFF_B d))
  /\ (get_c py_str species_name T self).1
     = result_bind (get_coeffs py_str species_name T self).1 (fun d => Ok (COEFF_C d)).
Proof.
  rewrite get_a_eq, get_b_eq, get_c_eq.
  by destruct (get_coeffs py_str species_name T self) as [[dct|e] self'].
Qed.

(** Two instances answer a query alike when they agree on those four. *)
Lemma same_answers (self1 self2 : AntoineCoefficientLib) (species_name : string)
    (T : R) :
  py_in species_name (antoine_coeff_lib self1)
  = py_in species_name (antoine_coeff_lib self2) ->
  get_coeffs_loop T (registered self1 species_name)
  = get_coeffs_loop T (registered self2 species_name) ->
  temperature_units self1 = temperature_units self2 ->
  is_log10 self1 = is_log10 self2 ->
  (get_coeffs py_str species_name T self1).1
  = (get_coeffs py_str species_name T self2).1
  /\ (get_a py_str species_name T self1).1 = (get_a py_str species_name T self2).1
  /\ (get_b py_str species_name T self1).1 = (get_b py_str species_name T self2).1
  /\ (get_c py_str species_name T self1).1 = (get_c py_str species_name T self2).1
  /\ (get_saturation_pressure py_str species_name T self1).1
     = (get_saturation_pressure py_str species_name T self2).1.
Proof.
  intros Hin Hloop Hunits Hlog.
  destruct (accessor_results self1 species_name T) as (-> & -> & ->).
  destruct (accessor_results self2 species_name T) as (-> & -> & ->).
  rewrite !get_saturation_pressure_result, !get_coeffs_result.
  by rewrite Hin, Hloop, Hunits, Hlog.
Qed.

Lemma py_in_add_coefficients (species_name other : string)
    (a b c lower upper : R) (self : AntoineCoefficientLib) :
  py_in other (antoine_coeff_lib
                 (add_coefficients species_name a b c lower upper self).2)
  = if decide (other = species_name) then true
    else py_in other (antoine_coeff_lib self).
Proof.
  rewrite add_coefficients_eq, !py_in_lookup. simpl.
  destruct (decide (other = species_name)) as [->|Hne].
  - by rewrite lookup_insert_eq.
  - by rewrite lookup_insert_ne.
Qed.

(** X4. The three accessors and the pressure agree: when [get_a], [get_b] and
    [get_c] return [a], [b] and [c] for a species and a temperature,
    [get_saturation_pressure] for the same query is [saturation_pressure] on
    these three values; and an exception of [get_coeffs] is the exception
    of each accessor. *)
Theorem accessors_agree_with_pressure (self : AntoineCoefficientLib)
    (species_name : string) (T : R) :
  (forall a b c : R,
     (get_a py_str species_name T self).1 = Ok a ->
     (get_b py_str species_name T self).1 = Ok b ->
     (get_c py_str species_name T self).1 = Ok c ->
     get_saturation_pressure py_str species_name T self
     = (saturation_pressure a b c T (is_log10 self), self))
  /\ (forall e : exn,
        (get_coeffs py_str species_name T self).1 = Raise e ->
        (get_a py_str species_name T self).1 = Raise e
        /\ (get_b py_str species_name T self).1 = Raise e
        /\ (get_c py_str species_name T self).1 = Raise e).
Proof.
  destruct (accessor_results self species_name T) as (-> & -> & ->).
  rewrite get_saturation_pressure_eq, get_coeffs_eq.
  destruct (antoine_coeff_lib self !! species_name) as [coeffs|]; simpl.
  - destruct (get_coeffs_loop T coeffs) as [dct|]; simpl.
    + split; [|done]. by intros a b c [= <-] [= <-] [= <-].
    + split; [done|]. by intros e [= <-].
  - split; [done|]. by intros e [= <-].
Qed.

(** X5. Registration followed by a query, round trip: after
    [add_coefficients] with [lower <= T <= upper], for a species none of
    whose earlier sets contains [T], [get_coeffs] at [T] returns the very
    set that was given, the accessors return [a], [b] and [c], and the
    pressure is the evaluator's on them. *)
Theorem registered_set_is_found (self : AntoineCoefficientLib)
    (species_name : string) (a b c lower upper T : R) :
  Forall (fun d => ~ in_range T d) (registered self species_name) ->
  lower <= T <= upper ->
  let self' := (add_coefficients species_name a b c lower upper self).2 in
  get_coeffs py_str species_name T self'
  = (Ok (mk_coeff_dict a b c lower upper), self')
  /\ get_a py_str species_name T self' = (Ok a, self')
  /\ get_b py_str species_name T self' = (Ok b, self')
  /\ get_c py_str species_name T self' = (Ok c, self')
  /\ get_saturation_pressure py_str species_name T self'
     = (saturation_pressure a b c T (is_log10 self), self').
Proof.
  intros Hnone Hin self'.
  assert (Hloop : get_coeffs_loop T (registered self' species_name)
                  = Some (mk_coeff_dict a b c lower upper)).
  { subst self'. rewrite registered_add_coefficients, decide_True by done.
    rewrite get_coeffs_loop_app. apply get_coeffs_loop_None in Hnone.
    rewrite Hnone. simpl.
    replace (_check_temperature T (mk_coeff_dict a b c lower upper)) with true;
      [done|].
    symmetry. by apply _check_temperature_in_range. }
  assert (Hlook : antoine_coeff_lib self' !! species_name
                  = Some (registered self' species_name)).
  { subst self'. rewrite add_coefficients_eq. unfold registered at 2. simpl.
    by rewrite !lookup_insert_eq. }
  assert (Hlog : is_log10 self' = is_log10 self).
  { subst self'. by rewrite add_coefficients_eq. }
  rewrite get_a_eq, get_b_eq, get_c_eq, get_saturation_pressure_eq, get_coeffs_eq.
  by rewrite Hlook, Hloop, Hlog.
Qed.

(** X6. A registration whose interval is already covered changes no answer:
    when the species has an entry and every temperature of
    [lower .. upper] lies in some set registered before, then after
    [add_coefficients] every query, on every species and at every
    temperature, ends as it did before.  An interval with [lower > upper]
    is covered, having no temperature. *)
Theorem covered_registration_changes_no_answer (self : AntoineCoefficientLib)
    (species_name : string) (a b c lower upper : R) :
  is_Some (antoine_coeff_lib self !! species_name) ->
  (forall T : R, lower <= T <= upper ->
     Exists (in_range T) (registered self species_name)) ->
  forall (other : string) (T : R),
    let self' := (add_coefficients species_name a b c lower upper self).2 in
    (get_coeffs py_str other T self').1 = (get_coeffs py_str other T self).1
    /\ (get_a py_str other T self').1 = (get_a py_str other T self).1
    /\ (get_b py_str other T self').1 = (get_b py_str other T self).1
    /\ (get_c py_str other T self').1 = (get_c py_str other T self).1
    /\ (get_saturation_pressure py_str other T self').1
       = (get_saturation_pressure py_str other T self).1.
Proof.
  intros [coeffs Hlook] Hcovered other T self'. subst self'.
  destruct (add_coefficients_attributes species_name a b c lower upper self)
    as (_ & Hunits & _ & Hlog).
  apply same_answers; [| |done ..].
  - rewrite py_in_add_coefficients.
    destruct (decide (other = species_name)) as [->|]; [|done].
    by rewrite py_in_lookup, Hlook.
  - rewrite registered_add_coefficients.
    destruct (decide (other = species_name)) as [->|]; [|done].
    rewrite get_coeffs_loop_app.
    destruct (get_coeffs_loop T (registered self species_name)) eqn:Hloop; [done|].
    simpl.
    destruct (_check_temperature T (mk_coeff_dict a b c lower upper)) eqn:Hchk;
      [|done].
    apply _check_temperature_in_range in Hchk.
    apply get_coeffs_loop_None in Hloop.
    apply Hcovered, Exists_exists in Hchk as (d & Hd & Hin).
    rewrite Forall_forall in Hloop. by destruct (Hloop d Hd).
Qed.

(** X7. A set with [lower > upper] registered for a species without entry
    creates an entry that no temperature resolves: from then on
    [get_coeffs] for that species raises [TemperatureOutOfRange], never
    [SpeciesNotFound], at every temperature. *)
Theorem inverted_interval_never_resolves (self : AntoineCoefficientLib)
    (species_name : string) (a b c lower upper T : R) :
  antoine_coeff_lib self !! species_name = None ->
  upper < lower ->
  let self' := (add_coefficients species_name a b c lower upper self).2 in
  get_coeffs py_str species_name T self'
  = (Raise (TemperatureOutOfRange
       ["There is no availible set of coefficients         with a temperature range "
        +:+ py_str T +:+ " " +:+ temperature_units self
        +:+ " is within the bounds of."]), self').
Proof.
  intros Hnone Hinv self'.
  assert (Hlook : antoine_coeff_lib self' !! species_name
                  = Some [mk_coeff_dict a b c lower upper]).
  { subst self'. rewrite add_coefficients_eq. simpl. rewrite lookup_insert_eq.
    unfold registered. by rewrite Hnone. }
  assert (Hunits : temperature_units self' = temperature_units self).
  { subst self'. by rewrite add_coefficients_eq. }
  rewrite get_coeffs_eq, Hlook. simpl.
  replace (_check_temperature T (mk_coeff_dict a b c lower upper)) with false.
  - unfold TemperatureOutOfRange_message. by rewrite Hunits.
  - symmetry. apply _check_temperature_not_in_range. unfold in_range. simpl. lra.
Qed.

(** X8. Registrations for two different species commute: both orders of the
    two calls leave the same instance. *)
Theorem registrations_of_distinct_species_commute (self : AntoineCoefficientLib)
    (species1 species2 : string) (a1 b1 c1 lower1 upper1 : R)
    (a2 b2 c2 lower2 upper2 : R) :
  species1 <> species2 ->
  add_coefficients species2 a2 b2 c2 lower2 upper2
    (add_coefficients species1 a1 b1 c1 lower1 upper1 self).2
  = add_coefficients species1 a1 b1 c1 lower1 upper1
      (add_coefficients species2 a2 b2 c2 lower2 upper2 self).2.
Proof.
  intros Hne.
  rewrite (add_coefficients_eq species2 _ _ _ _ _ (add_coefficients _ _ _ _ _ _ _).2).
  rewrite (add_coefficients_eq species1 _ _ _ _ _ (add_coefficients _ _ _ _ _ _ _).2).
  rewrite !registered_add_coefficients.
  rewrite decide_False by done. rewrite decide_False by done.
  rewrite !add_coefficients_eq. simpl. unfold set_antoine_coeff_lib. simpl.
  by rewrite insert_insert_ne.
Qed.

(** *** Sequences of registrations *)

Lemma register_all_cons (species_name : string) (d : coeff_dict)
    (rest : list (string * coeff_dict)) (self : AntoineCoefficientLib) :
  register_all ((species_name, d) :: rest) self
  = register_all rest (register_set species_name d self).2.
Proof. simpl. unfold mbind, method_bind. by rewrite register_set_eq. Qed.

Lemma register_all_returns (regs : list (string * coeff_dict))
    (self : AntoineCoefficientLib) :
  (register_all regs self).1 = Ok tt.
Proof.
  revert self. induction regs as [|[species_name d] rest IH]; intros self; [done|].
  rewrite register_all_cons. apply IH.
Qed.

Lemma sets_for_cons (species_name other : string) (d : coeff_dict)
    (rest : list (string * coeff_dict)) :
  sets_for other ((species_name, d) :: rest)
  = if decide (other = species_name) then d :: sets_for other rest
    else sets_for other rest.
Proof.
  unfold sets_for. rewrite filter_cons. simpl.
  destruct (decide (species_name = other)) as [->|Hne].
  - by rewrite decide_True.
  - by rewrite decide_False.
Qed.

Lemma sets_for_not_named (species_name : string)
    (regs : list (string * coeff_dict)) :
  species_name ∉ regs.*1 <-> sets_for species_name regs = [].
Proof.
  induction regs as [|[s d] rest IH].
  - split; [done|]. intros _. apply not_elem_of_nil.
  - rewrite sets_for_cons, fmap_cons, not_elem_of_cons. simpl.
    destruct (decide (species_name = s)) as [->|Hne].
    + split; [by intros [? _] | done].
    + rewrite <- IH. tauto.
Qed.

Lemma registered_register_set (species_name other : string) (d : coeff_dict)
    (self : AntoineCoefficientLib) :
  registered (register_set species_name d self).2 other
  = if decide (other = species_name) then registered self other ++ [d]
    else registered self other.
Proof.
  unfold register_set. rewrite registered_add_coefficients. by destruct d.
Qed.

Lemma registered_register_all (regs : list (string * coeff_dict))
    (self : AntoineCoefficientLib) (other : string) :
  registered (register_all regs self).2 other
  = registered self other ++ sets_for other regs.
Proof.
  revert self. induction regs as [|[species_name d] rest IH]; intros self.
  - by rewrite app_nil_r.
  - rewrite register_all_cons, IH, registered_register_set, sets_for_cons.
    destruct (decide (other = species_name)); [|done].
    by rewrite <- app_assoc.
Qed.

Lemma py_in_register_all (regs : list (string * coeff_dict))
    (self : AntoineCoefficientLib) (other : string) :
  py_in other (antoine_coeff_lib (register_all regs self).2)
  = py_in other (antoine_coeff_lib self) || bool_decide (other ∈ regs.*1).
Proof.
  revert self. induction regs as [|[species_name d] rest IH]; intros self.
  - simpl. by rewrite orb_false_r.
  - rewrite register_all_cons, IH. unfold register_set.
    rewrite py_in_add_coefficients, fmap_cons.
    change ((species_name, d).1) with species_name.
    destruct (decide (other = species_name)) as [->|Hne].
    + rewrite (bool_decide_eq_true_2 (species_name ∈ species_name :: rest.*1));
        [by rewrite orb_true_r | apply list_elem_of_here].
    + f_equal. apply bool_decide_ext. rewrite elem_of_cons. tauto.
Qed.

Lemma register_all_attributes (regs : list (string * coeff_dict))
    (self : AntoineCoefficientLib) :
  let self' := (register_all regs self).2 in
  source self' = source self
  /\ temperature_units self' = temperature_units self
  /\ pressure_units self' = pressure_units self
  /\ is_log10 self' = is_log10 self.
Proof.
  simpl. revert self. induction regs as [|[species_name d] rest IH]; intros self.
  - done.
  - rewrite register_all_cons.
    destruct (IH (register_set species_name d self).2) as (-> & -> & -> & ->).
    by rewrite register_set_eq.
Qed.

(** X9. An answer once given is kept: when [get_coeffs] returns a set for a
    species and a temperature, it returns the same set after any further
    calls of [add_coefficients], for this or for other species, and the
    accessors and the pressure end as before. *)
Theorem resolved_answers_are_stable (self : AntoineCoefficientLib)
    (regs : list (string * coeff_dict)) (species_name : string) (T : R)
    (dct : coeff_dict) :
  (get_coeffs py_str species_name T self).1 = Ok dct ->
  let self' := (register_all regs self).2 in
  (get_coeffs py_str species_name T self').1 = Ok dct
  /\ (get_a py_str species_name T self').1 = Ok (COEFF_A dct)
  /\ (get_b py_str species_name T self').1 = Ok (COEFF_B dct)
  /\ (get_c py_str species_name T self').1 = Ok (COEFF_C dct)
  /\ (get_saturation_pressure py_str species_name T self').1
     = (get_saturation_pressure py_str species_name T self).1.
Proof.
  intros Hget self'.
  assert (Hin : py_in species_name (antoine_coeff_lib self) = true
                /\ get_coeffs_loop T (registered self species_name) = Some dct).
  { rewrite get_coeffs_result in Hget.
    destruct (py_in species_name (antoine_coeff_lib self)); [|discriminate].
    destruct (get_coeffs_loop T (registered self species_name)); [|discriminate].
    by injection Hget as ->. }
  destruct Hin as [Hin Hloop].
  destruct (register_all_attributes regs self) as (_ & Hunits & _ & Hlog).
  destruct (same_answers self' self species_name T) as (Hc & Ha & Hb & Hcc & Hp).
  - subst self'. by rewrite py_in_register_all, Hin.
  - subst self'. by rewrite registered_register_all, get_coeffs_loop_app, Hloop.
  - done.
  - done.
  - destruct (accessor_results self species_name T) as (Ha0 & Hb0 & Hc0).
    rewrite Hget in Ha0, Hb0, Hc0. simpl in Ha0, Hb0, Hc0.
    by rewrite Hc, Ha, Hb, Hcc, Hp.
Qed.

(** X10. Registrations under other names change nothing for a species: after
    any calls of [add_coefficients] none of which names it, every query on
    it ends as before, with the same value or the same exception. *)
Theorem registrations_of_other_species_change_no_answer
    (self : AntoineCoefficientLib) (regs : list (string * coeff_dict))
    (species_name : string) (T : R) :
  species_name ∉ regs.*1 ->
  let self' := (register_all regs self).2 in
  (get_coeffs py_str species_name T self').1
  = (get_coeffs py_str species_name T self).1
  /\ (get_a py_str species_name T self').1 = (get_a py_str species_name T self).1
  /\ (get_b py_str species_name T self').1 = (get_b py_str species_name T self).1
  /\ (get_c py_str species_name T self').1 = (get_c py_str species_name T self).1
  /\ (get_saturation_pressure py_str species_name T self').1
     = (get_saturation_pressure py_str species_name T self).1.
Proof.
  intros Hnot self'.
  destruct (register_all_attributes regs self) as (_ & Hunits & _ & Hlog).
  apply same_answers; [| |done ..]; subst self'.
  - rewrite py_in_register_all, bool_decide_eq_false_2 by done.
    by rewrite orb_false_r.
  - apply sets_for_not_named in Hnot.
    by rewrite registered_register_all, Hnot, app_nil_r.
Qed.

(** X11. A library built from scratch holds what was registered, in call
    order: after any calls of [add_coefficients] on a new instance, which
    all return, the entry of a species is the list of the sets registered
    under its name, in the order of the calls; a species has no entry exactly
    when no call named it; the four attributes are those of the constructor;
    and [get_coeffs] returns a set exactly when it is the first of those
    registered for the species whose interval contains the temperature. *)
Theorem register_all_on_new_instance
    (units_T units_P citation : string) (use_log10 : bool)
    (regs : list (string * coeff_dict)) :
  exists self' : AntoineCoefficientLib,
    register_all regs (__init__ units_T units_P citation use_log10) = (Ok tt, self')
    /\ (forall species_name : string,
          registered self' species_name = sets_for species_name regs)
    /\ (forall species_name : string,
          antoine_coeff_lib self' !! species_name = None
          <-> species_name ∉ regs.*1)
    /\ source self' = citation
    /\ temperature_units self' = units_T
    /\ pressure_units self' = units_P
    /\ is_log10 self' = use_log10
    /\ (forall (species_name : string) (T : R) (dct : coeff_dict),
          get_coeffs py_str species_name T self' = (Ok dct, self')
          <-> first_in_range T (sets_for species_name regs) dct).
Proof.
  set (self0 := __init__ units_T units_P citation use_log10).
  exists (register_all regs self0).2.
  pose proof (register_all_returns regs self0) as Hret.
  assert (Hreg : forall species_name,
            registered (register_all regs self0).2 species_name
            = sets_for species_name regs).
  { intros species_name. by rewrite registered_register_all. }
  destruct (register_all_attributes regs self0) as (Hs & Hu & Hp & Hl).
  split; [by destruct (register_all regs self0) as [r self']; simpl in *; subst|].
  split; [exact Hreg|]. split.
  { intros species_name.
    pose proof (py_in_register_all regs self0 species_name) as Hin.
    rewrite !py_in_lookup in Hin. simpl in Hin.
    destruct (antoine_coeff_lib (register_all regs self0).2 !! species_name).
    - split; [done|]. intros Hnot.
      by rewrite bool_decide_eq_false_2 in Hin.
    - split; [|done]. intros _ Hel.
      by rewrite bool_decide_eq_true_2 in Hin. }
  repeat (split; [done|]).
  intros species_name T dct. rewrite <- Hreg, <- get_coeffs_loop_Some.
  rewrite get_coeffs_eq. unfold registered.
  destruct (antoine_coeff_lib (register_all regs self0).2 !! species_name)
    as [coeffs|]; simpl; [|done].
  destruct (get_coeffs_loop T coeffs); split; congruence.
Qed.

End Further.

(** ** The further properties on the scenarios *)

Lemma methanol_accessors_50 :
  (get_a py_str_scenario METHANOL 50 boublik_et_al).1 = Ok 8.08097
  /\ (get_b py_str_scenario METHANOL 50 boublik_et_al).1 = Ok 1582.271
  /\ (get_c py_str_scenario METHANOL 50 boublik_et_al).1 = Ok 239.726.
Proof.
  by rewrite get_a_eq, get_b_eq, get_c_eq, get_coeffs_methanol_50.
Qed.

Lemma accessors_agree_with_pressure_witness :
  ((get_a py_str_scenario METHANOL 50 boublik_et_al).1 = Ok 8.08097
   /\ (get_b py_str_scenario METHANOL 50 boublik_et_al).1 = Ok 1582.271
   /\ (get_c py_str_scenario METHANOL 50 boublik_et_al).1 = Ok 239.726)
  /\ get_saturation_pressure py_str_scenario METHANOL 50 boublik_et_al
     = (saturation_pressure 8.08097 1582.271 239.726 50 (is_log10 boublik_et_al),
        boublik_et_al).
Proof.
  split; [exact methanol_accessors_50|].
  exact (proj1 (accessors_agree_with_pressure py_str_scenario
                  boublik_et_al METHANOL 50)
           8.08097 1582.271 239.726
           (proj1 methanol_accessors_50)
           (proj1 (proj2 methanol_accessors_50))
           (proj2 (proj2 methanol_accessors_50))).
Defined.

Lemma new_instance_nothing_registered (species_name : string) (T : R) :
  Forall (fun d => ~ in_range T d) (registered new_instance species_name).
Proof. unfold registered, new_instance. rewrite __init___no_entry. constructor. Qed.

Lemma registered_set_is_found_witness :
  (Forall (fun d => ~ in_range 14.9 d) (registered new_instance METHANOL)
   /\ 14.9 <= 14.9 <= 83.7)
  /\ get_coeffs py_str_scenario METHANOL 14.9
       (add_coefficients METHANOL 8.08097 1582.271 239.726 14.9 83.7
          new_instance).2
     = (Ok (mk_coeff_dict 8.08097 1582.271 239.726 14.9 83.7),
        (add_coefficients METHANOL 8.08097 1582.271 239.726 14.9 83.7
           new_instance).2).
Proof.
  assert (Hin : 14.9 <= 14.9 <= 83.7) by lra.
  split; [split; [apply new_instance_nothing_registered | exact Hin]|].
  exact (proj1 (registered_set_is_found py_str_scenario new_instance METHANOL
                  8.08097 1582.271 239.726 14.9 83.7 14.9
                  (new_instance_nothing_registered METHANOL 14.9) Hin)).
Defined.

Lemma methanol_has_entry : is_Some (antoine_coeff_lib boublik_et_al !! METHANOL).
Proof. rewrite boublik_et_al_methanol. by eexists. Qed.

Lemma methanol_covers_20_30 (T : R) :
  20 <= T <= 30 -> Exists (in_range T) (registered boublik_et_al METHANOL).
Proof.
  intros HT. unfold registered. rewrite boublik_et_al_methanol. simpl.
  apply Exists_cons_hd, methanol_in_range. lra.
Qed.

Lemma covered_registration_changes_no_answer_witness :
  (is_Some (antoine_coeff_lib boublik_et_al !! METHANOL)
   /\ forall T : R, 20 <= T <= 30 ->
        Exists (in_range T) (registered boublik_et_al METHANOL))
  /\ (get_coeffs py_str_scenario METHANOL 25
        (add_coefficients METHANOL 1 2 3 20 30 boublik_et_al).2).1
     = (get_coeffs py_str_scenario METHANOL 25 boublik_et_al).1.
Proof.
  split; [split; [exact methanol_has_entry | exact methanol_covers_20_30]|].
  exact (proj1 (covered_registration_changes_no_answer py_str_scenario
                  boublik_et_al METHANOL 1 2 3 20 30
                  methanol_has_entry methanol_covers_20_30 METHANOL 25)).
Defined.

Lemma boublik_et_al_benzene : antoine_coeff_lib boublik_et_al !! BENZENE = None.
Proof.
  unfold boublik_et_al. rewrite add_coefficients_eq. simpl.
  by rewrite lookup_insert_ne.
Qed.

Lemma inverted_interval_never_resolves_witness :
  (antoine_coeff_lib boublik_et_al !! BENZENE = None /\ 20 < 80)
  /\ get_coeffs py_str_scenario BENZENE 50
       (add_coefficients BENZENE 1 2 3 80 20 boublik_et_al).2
     = (Raise (TemperatureOutOfRange
          ["There is no availible set of coefficients         with a temperature range "
           +:+ py_str_scenario 50 +:+ " " +:+ temperature_units boublik_et_al
           +:+ " is within the bounds of."]),
        (add_coefficients BENZENE 1 2 3 80 20 boublik_et_al).2).
Proof.
  assert (Hinv : 20 < 80) by lra.
  split; [split; [exact boublik_et_al_benzene | exact Hinv]|].
  exact (inverted_interval_never_resolves py_str_scenario boublik_et_al BENZENE
           1 2 3 80 20 50 boublik_et_al_benzene Hinv).
Defined.

Lemma registrations_of_distinct_species_commute_witness :
  METHANOL <> BENZENE
  /\ add_coefficients BENZENE 1 2 3 0 60
       (add_coefficients METHANOL 4 5 6 40 100 new_instance).2
     = add_coefficients METHANOL 4 5 6 40 100
         (add_coefficients BENZENE 1 2 3 0 60 new_instance).2.
Proof.
  assert (Hne : METHANOL <> BENZENE) by discriminate.
  split; [exact Hne|].
  exact (registrations_of_distinct_species_commute new_instance METHANOL BENZENE
           4 5 6 40 100 1 2 3 0 60 Hne).
Defined.

Lemma get_coeffs_methanol_50_result :
  (get_coeffs py_str_scenario METHANOL 50 boublik_et_al).1 = Ok methanol_set.
Proof. by rewrite get_coeffs_methanol_50. Qed.

Lemma resolved_answers_are_stable_witness :
  (get_coeffs py_str_scenario METHANOL 50 boublik_et_al).1 = Ok methanol_set
  /\ (get_coeffs py_str_scenario METHANOL 50
        (register_all scenario_calls boublik_et_al).2).1 = Ok methanol_set.
Proof.
  split; [exact get_coeffs_methanol_50_result|].
  exact (proj1 (resolved_answers_are_stable py_str_scenario boublik_et_al
                  scenario_calls METHANOL 50 methanol_set
                  get_coeffs_methanol_50_result)).
Defined.

Lemma methanol_not_named : METHANOL ∉ [(BENZENE, overlap_first)].*1.
Proof. simpl. intros Hel. apply list_elem_of_singleton in Hel. discriminate. Qed.

Lemma registrations_of_other_species_change_no_answer_witness :
  (METHANOL ∉ [(BENZENE, overlap_first)].*1)
  /\ (get_saturation_pressure py_str_scenario METHANOL 50
        (register_all [(BENZENE, overlap_first)] boublik_et_al).2).1
     = (get_saturation_pressure py_str_scenario METHANOL 50 boublik_et_al).1.
Proof.
  split; [exact methanol_not_named|].
  exact (proj2 (proj2 (proj2 (proj2
           (registrations_of_other_species_change_no_answer py_str_scenario
              boublik_et_al [(BENZENE, overlap_first)] METHANOL 50
              methanol_not_named))))).
Defined.

Lemma sets_for_scenario_calls :
  sets_for METHANOL scenario_calls = [methanol_set; overlap_second]
  /\ sets_for BENZENE scenario_calls = [overlap_first]
  /\ sets_for ETHANOL scenario_calls = [].
Proof.
  unfold scenario_calls. rewrite !sets_for_cons. unfold sets_for. simpl.
  repeat split.
Qed.

Lemma first_in_range_scenario_calls :
  first_in_range 50 (sets_for METHANOL scenario_calls) methanol_set.
Proof.
  destruct sets_for_scenario_calls as (-> & _ & _).
  exists [], [overlap_second].
  repeat split; [constructor | apply methanol_in_range; lra ..].
Qed.

Lemma register_all_on_new_instance_witness :
  first_in_range 50 (sets_for METHANOL scenario_calls) methanol_set
  /\ exists self' : AntoineCoefficientLib,
       register_all scenario_calls new_instance = (Ok tt, self')
       /\ registered self' METHANOL = sets_for METHANOL scenario_calls
       /\ get_coeffs py_str_scenario METHANOL 50 self' = (Ok methanol_set, self').
Proof.
  split; [exact first_in_range_scenario_calls|].
  destruct (register_all_on_new_instance py_str_scenario CELSIUS MMHG "" true
              scenario_calls)
    as (self' & Hrun & Hreg & _ & _ & _ & _ & _ & Hget).
  exists self'. split; [exact Hrun|]. split; [exact (Hreg METHANOL)|].
  exact (proj2 (Hget METHANOL 50 methanol_set) first_in_range_scenario_calls).
Defined.

